(** * EduBot launcher ([src/edubot/run.py]): a shallow embedding

    The launcher is glue code around three external parties: the Python
    import system, the [asyncio] event loop of the host process, and the
    [EduBot] class of [edubot.bot].  The embedding threads an explicit
    [World] through every call and records each call that crosses into an
    external party in a chronological [trace].  Python exceptions and
    calls that never return are outcomes of the monad [M]. *)

From Stdlib Require Import Ascii String.
From stdpp Require Import base strings list gmap.

(** ** Python values and exceptions *)

(** Objects with identity (loops, bots, tasks) are named by the index
    of their creation. *)
Abbreviation LoopId := nat (only parsing).
Abbreviation BotId := nat (only parsing).
Abbreviation TaskId := nat (only parsing).

(** The Python values the launcher handles.  [run.py] is dynamically
    typed: a token may be any object, so the non-string constructors are
    all possible arguments of the runners. *)
Inductive pyval : Type :=
| PyNone
| PyBool (b : bool)
| PyInt (n : Z)
| PyStr (s : string)
| PyShell                       (* the running IPython [InteractiveShell] *)
| PyCoro (c : coroutine)        (* a coroutine object, not yet started *)
| PyTask (t : TaskId)           (* an [asyncio.Task] handle *)
with coroutine : Type :=
| BotStart (b : BotId) (token : pyval)  (* [bot.start(token)] *)
| UserCoro (k : nat).                   (* any other coroutine, e.g. [bot.dm(..)] *)

Inductive exn : Type :=
| AssertionError (msg : string)
| ImportError (serial : nat) (name : string)
| TypeError (msg : string)
| AttributeError (attr : string)
| UsageError (msg : string)     (* click.UsageError *)
| ClickExit (code : Z)          (* click.exceptions.Exit, raised by [--help] *)
| BotError (msg : string).      (* whatever the bot framework raises *)

(** [isinstance(v, str)] *)
Definition isinstance_str (v : pyval) : bool :=
  match v with PyStr _ => true | _ => false end.

(** Python truth value, as used by [not __package__] and by the
    conditional expression of the [__main__] block. *)
Definition py_truthy (v : pyval) : bool :=
  match v with
  | PyNone => false
  | PyBool b => b
  | PyInt n => negb (Z.eqb n 0)
  | PyStr s => negb (Nat.eqb (String.length s) 0)
  | PyShell | PyCoro _ | PyTask _ => true
  end.

(** ** The world *)

(** What the external blocking call [bot.run(token)] does: it returns
    when the bot disconnects, it raises, or it never returns. *)
Inductive RunOutcome : Type :=
| RunReturns
| RunRaises (e : exn)
| RunForever.

(** State of the optional IPython package. *)
Inductive IPythonEnv : Type :=
| IPythonAbsent                 (* [from IPython import ...] raises ImportError *)
| IPythonIdle                   (* installed, no interactive shell running *)
| IPythonActive.                (* installed, running inside an interactive shell *)

Record LoopState : Type := mkLoop {
  loop_debug : bool;
  loop_ready : list TaskId;     (* scheduled, not yet executed *)
}.

Record Task : Type := mkTask {
  task_loop : LoopId;
  task_coro : coroutine;
}.

Inductive Event : Type :=
| EvImportEduBot (ok : bool)
| EvGetEventLoop (l : LoopId)
| EvSetDebug (l : LoopId) (b : bool)
| EvNewBot (b : BotId)
| EvBotRun (b : BotId) (token : pyval)
| EvBotStart (b : BotId) (token : pyval)
| EvCreateTask (l : LoopId) (t : TaskId)
| EvTaskStep (t : TaskId).

Record World : Type := mkWorld {
  environ : gmap string string;       (* [os.environ] *)
  sys_path : list string;             (* [sys.path] *)
  fs_has_edubot : string -> bool;     (* does this path entry provide [edubot.bot]? *)
  ipython : IPythonEnv;
  bot_run_outcome : pyval -> RunOutcome;
  current_loop : option LoopId;       (* the event loop set for this thread *)
  loops : list LoopState;             (* loop objects, by identity *)
  tasks : list Task;                  (* task objects, by identity *)
  bots : nat;                         (* number of [EduBot] objects constructed *)
  exn_serial : nat;                   (* identity of the next ImportError *)
  trace : list Event;
}.

Definition set_sys_path (p : list string) (w : World) : World :=
  mkWorld (environ w) p (fs_has_edubot w) (ipython w) (bot_run_outcome w)
          (current_loop w) (loops w) (tasks w) (bots w) (exn_serial w) (trace w).

Definition set_current_loop (c : option LoopId) (w : World) : World :=
  mkWorld (environ w) (sys_path w) (fs_has_edubot w) (ipython w) (bot_run_outcome w)
          c (loops w) (tasks w) (bots w) (exn_serial w) (trace w).

Definition set_loops (ls : list LoopState) (w : World) : World :=
  mkWorld (environ w) (sys_path w) (fs_has_edubot w) (ipython w) (bot_run_outcome w)
          (current_loop w) ls (tasks w) (bots w) (exn_serial w) (trace w).

Definition set_tasks (ts : list Task) (w : World) : World :=
  mkWorld (environ w) (sys_path w) (fs_has_edubot w) (ipython w) (bot_run_outcome w)
          (current_loop w) (loops w) ts (bots w) (exn_serial w) (trace w).

Definition set_bots (n : nat) (w : World) : World :=
  mkWorld (environ w) (sys_path w) (fs_has_edubot w) (ipython w) (bot_run_outcome w)
          (current_loop w) (loops w) (tasks w) n (exn_serial w) (trace w).

Definition set_exn_serial (n : nat) (w : World) : World :=
  mkWorld (environ w) (sys_path w) (fs_has_edubot w) (ipython w) (bot_run_outcome w)
          (current_loop w) (loops w) (tasks w) (bots w) n (trace w).

Definition log (e : Event) (w : World) : World :=
  mkWorld (environ w) (sys_path w) (fs_has_edubot w) (ipython w) (bot_run_outcome w)
          (current_loop w) (loops w) (tasks w) (bots w) (exn_serial w) (trace w ++ [e]).

(** ** The monad of launcher code *)

Inductive result (A : Type) : Type :=
| Ok (a : A) (w : World)        (* returned [a] *)
| Raise (e : exn) (w : World)   (* an exception propagates *)
| Blocked (w : World).          (* the call never returns *)
Arguments Ok {A} a w.
Arguments Raise {A} e w.
Arguments Blocked {A} w.

Definition M (A : Type) : Type := World -> result A.

Definition ret {A} (a : A) : M A := fun w => Ok a w.

Definition bind {A B} (m : M A) (k : A -> M B) : M B :=
  fun w =>
    match m w with
    | Ok a w' => k a w'
    | Raise e w' => Raise e w'
    | Blocked w' => Blocked w'
    end.

Definition raise {A} (e : exn) : M A := fun w => Raise e w.

(** [try: body except ImportError as e: handler e] *)
Definition try_except_ImportError {A} (body : M A) (handler : exn -> M A) : M A :=
  fun w =>
    match body w with
    | Raise (ImportError n s) w' => handler (ImportError n s) w'
    | r => r
    end.

Notation "'do' x <- m ; k" := (bind m (fun x => k))
  (at level 10, x name, m at level 100, k at level 200).

Definition final_world {A} (r : result A) : World :=
  match r with Ok _ w | Raise _ w | Blocked w => w end.

(** ** The external parties

    One module per Python name space that [run.py] calls into. *)

Fixpoint drop_while {A} (p : A -> bool) (l : list A) : list A :=
  match l with
  | [] => []
  | x :: l' => if p x then drop_while p l' else l
  end.

Definition is_slash (c : Ascii.ascii) : bool := Ascii.eqb c "/"%char.

Module os.

  (** [os.getenv(key)]: the value, or [None] when the variable is unset. *)
Definition getenv (key : string) : M pyval :=
  fun w => Ok (match environ w !! key with Some v => PyStr v | None => PyNone end) w.

Module path.

  (** [os.path.dirname(p)], POSIX flavour: cut after the last slash, then
      strip trailing slashes unless the head consists of slashes only. *)
Definition dirname (p : string) : string :=
  let rhead := drop_while (fun c => negb (is_slash c)) (rev (list_ascii_of_string p)) in
  let rstripped := drop_while is_slash rhead in
  match rstripped with
  | [] => string_of_list_ascii (rev rhead)
  | _ => string_of_list_ascii (rev rstripped)
  end.

  (** [os.path.join(a, b)] for a relative [b]. *)
Definition join (a b : string) : string :=
  match rev (list_ascii_of_string a) with
  | [] => b
  | c :: _ => if is_slash c then a +:+ b else a +:+ "/" +:+ b
  end.

End path.

End os.

Module sys.
Module path.

  (** [sys.path.insert(i, d)]: [d] goes before position [i], at the end
      when the list is shorter. *)
Definition insert (i : nat) (d : string) : M unit :=
  fun w => Ok tt (set_sys_path (take i (sys_path w) ++ d :: drop i (sys_path w)) w).

End path.
End sys.

(** [from edubot.bot import EduBot]: the import system searches
    [sys.path]; a failed search raises a fresh ImportError. *)
Definition import_EduBot : M unit :=
  fun w =>
    if existsb (fs_has_edubot w) (sys_path w)
    then Ok tt (log (EvImportEduBot true) w)
    else Raise (ImportError (exn_serial w) "edubot")
               (log (EvImportEduBot false) (set_exn_serial (S (exn_serial w)) w)).

(** [from IPython import get_ipython] *)
Definition import_get_ipython : M unit :=
  fun w =>
    match ipython w with
    | IPythonAbsent =>
        Raise (ImportError (exn_serial w) "IPython") (set_exn_serial (S (exn_serial w)) w)
    | _ => Ok tt w
    end.

Module IPython.

  (** [get_ipython()]: the running shell, or [None] outside of one. *)
Definition get_ipython : M pyval :=
  fun w => Ok (match ipython w with IPythonActive => PyShell | _ => PyNone end) w.

End IPython.

Module asyncio.

  (** [asyncio.get_event_loop()], called from the main thread: the loop
      that is set for the thread; when none is set, a new loop (debug
      off, nothing scheduled) is created and set. *)
Definition get_event_loop : M LoopId :=
  fun w =>
    match current_loop w with
    | Some l => Ok l (log (EvGetEventLoop l) w)
    | None =>
        let l := length (loops w) in
        Ok l (log (EvGetEventLoop l)
                  (set_current_loop (Some l) (set_loops (loops w ++ [mkLoop false []]) w)))
    end.

Module loop.

  (** [loop.set_debug(b)] *)
Definition set_debug (l : LoopId) (b : bool) : M unit :=
  fun w =>
    Ok tt (log (EvSetDebug l b)
               (set_loops (alter (fun s => mkLoop b (loop_ready s)) l (loops w)) w)).

  (** [loop.create_task(coro)]: wraps the coroutine in a new task,
      appends the task to the loop's ready queue and returns its handle.
      Nothing of the coroutine runs here. *)
Definition create_task (l : LoopId) (coro : pyval) : M pyval :=
  fun w =>
    match coro with
    | PyCoro c =>
        let t := length (tasks w) in
        Ok (PyTask t)
           (log (EvCreateTask l t)
                (set_loops (alter (fun s => mkLoop (loop_debug s) (loop_ready s ++ [t])) l (loops w))
                           (set_tasks (tasks w ++ [mkTask l c]) w)))
    | _ => Raise (TypeError "a coroutine was expected") w
    end.

  (** One iteration of the host's event processing on loop [l]: the
      first ready task, if any, is taken off the queue and stepped.  The
      launcher never calls this; only the host console does. *)
Definition run_once (l : LoopId) : M unit :=
  fun w =>
    match loops w !! l with
    | Some (mkLoop d (t :: q)) =>
        Ok tt (log (EvTaskStep t) (set_loops (<[l := mkLoop d q]> (loops w)) w))
    | _ => Ok tt w
    end.

End loop.

End asyncio.

Module EduBot.

(** Modelled from the spec: the class [EduBot] of [edubot.bot] is not
    among the sources; the spec describes a bot instance as an
    externally-defined object with blocking and non-blocking start entry
    points.  [EduBot()] yields a new bot object. *)
Definition new : M BotId :=
  fun w => Ok (bots w) (log (EvNewBot (bots w)) (set_bots (S (bots w)) w)).

(** Modelled from the spec: [bot.run(token)], the blocking entry point
    of the missing class, occupies the caller until the bot terminates;
    whether it returns, raises or never comes back is the bot
    framework's doing, read here from [bot_run_outcome]. *)
Definition run (b : BotId) (token : pyval) : M pyval :=
  fun w =>
    let w' := log (EvBotRun b token) w in
    match bot_run_outcome w token with
    | RunReturns => Ok PyNone w'
    | RunRaises e => Raise e w'
    | RunForever => Blocked w'
    end.

(** Modelled from the spec: [bot.start(token)], the asynchronous start
    routine of the missing class; calling it yields a coroutine object
    and runs none of it. *)
Definition start (b : BotId) (token : pyval) : M pyval :=
  fun w => Ok (PyCoro (BotStart b token)) (log (EvBotStart b token) w).

End EduBot.

(** ** String helper of the option parser *)

(** [s.split("=", 1)]: the text before the first [=], and the text after
    it when there is one. *)
Fixpoint split_eq (s : string) : string * option string :=
  match s with
  | EmptyString => (EmptyString, None)
  | String c s' =>
      if Ascii.eqb c "="%char then (EmptyString, Some s')
      else let '(n, v) := split_eq s' in (String c n, v)
  end.

(** ** [run.py]: module-level code *)

(** The names the module binds at import time. *)
Record Module : Type := mkModule {
  TOKEN : pyval;
}.

(** Lines 26-43.  [package] is the module's [__package__] and
    [filepath] the path of [run.py] that [inspect.getfile] reports. *)
Definition load_module (package : pyval) (filepath : string) : M Module :=
  do _ <- try_except_ImportError import_EduBot
            (fun e =>
               if negb (py_truthy package) then
                 do _ <- sys.path.insert 0 (os.path.join (os.path.dirname filepath) "..");
                 import_EduBot
               else
                 raise e);
  do tok <- os.getenv "DISCORD_TOKEN";
  ret (mkModule tok).

(** ** [run.py]: the runner classes *)

Inductive RunnerClass : Type := BotRunner | InteractiveBotRunner.

(** A runner object: its class and the attributes set so far. *)
Record Runner : Type := mkRunner {
  r_cls : RunnerClass;
  r_loop : option LoopId;       (* [self.loop] *)
  r_bot : option BotId;         (* [self.bot] *)
}.

Definition set_r_loop (l : LoopId) (self : Runner) : Runner :=
  mkRunner (r_cls self) (Some l) (r_bot self).

Definition set_r_bot (b : BotId) (self : Runner) : Runner :=
  mkRunner (r_cls self) (r_loop self) (Some b).

Definition getattr_bot (self : Runner) : M BotId :=
  match r_bot self with
  | Some b => ret b
  | None => raise (AttributeError "bot")
  end.

Definition getattr_loop (self : Runner) : M LoopId :=
  match r_loop self with
  | Some l => ret l
  | None => raise (AttributeError "loop")
  end.

(** [len(v)], for the values a token can be. *)
Definition py_len (v : pyval) : M nat :=
  match v with
  | PyStr s => ret (String.length s)
  | _ => raise (TypeError "object has no len()")
  end.

(** [BotRunner.validate_token] (lines 59-63).  [and] evaluates its right
    operand only when the left one is true.  The [assert] statement is
    executed, as it is by an interpreter started without [-O]. *)
Definition validate_token (token : pyval) : M pyval :=
  let _error_msg := "No Discord API token could be retrieved" in
  do cond <- (if isinstance_str token
              then do n <- py_len token; ret (negb (Nat.eqb n 0))
              else ret false);
  if cond : bool then ret PyNone else raise (AssertionError _error_msg).

(** [BotRunner.run] (lines 54-56) *)
Definition BotRunner_run (self : Runner) (token : pyval) : M pyval :=
  do b <- getattr_bot self;
  do _ <- EduBot.run b token;
  ret PyNone.

(** [InteractiveBotRunner.create_task] (lines 109-117) *)
Definition create_task (self : Runner) (coroutine : pyval) : M pyval :=
  do l <- getattr_loop self;
  asyncio.loop.create_task l coroutine.

(** [InteractiveBotRunner.run] (lines 99-107): the body is an expression
    statement, so the method returns [None]. *)
Definition InteractiveBotRunner_run (self : Runner) (token : pyval) : M pyval :=
  do b <- getattr_bot self;
  do c <- EduBot.start b token;
  do _ <- create_task self c;
  ret PyNone.

(** [self.run(token)]: method lookup through the class of [self]. *)
Definition Runner_run (self : Runner) (token : pyval) : M pyval :=
  match r_cls self with
  | BotRunner => BotRunner_run self token
  | InteractiveBotRunner => InteractiveBotRunner_run self token
  end.

(** [BotRunner.__init__] (lines 49-52) *)
Definition BotRunner_init (self : Runner) (token : pyval) : M Runner :=
  do _ <- validate_token token;
  do b <- EduBot.new;
  let self := set_r_bot b self in
  do _ <- Runner_run self token;
  ret self.

(** [InteractiveBotRunner.__init__] (lines 94-97) *)
Definition InteractiveBotRunner_init (self : Runner) (token : pyval) : M Runner :=
  do l <- asyncio.get_event_loop;
  let self := set_r_loop l self in
  do _ <- asyncio.loop.set_debug l true;
  BotRunner_init self token.

(** [cls(token)]: a new object of class [cls], initialised by the
    [__init__] of that class. *)
Definition new (cls : RunnerClass) (token : pyval) : M Runner :=
  let self := mkRunner cls None None in
  match cls with
  | BotRunner => BotRunner_init self token
  | InteractiveBotRunner => InteractiveBotRunner_init self token
  end.

(** ** [run.py]: command line, probe and script entry *)

(** The callback [cli] (lines 120-129) *)
Definition cli (token : pyval) : M Runner := new BotRunner token.

(** What [click] makes of the argument list for a command whose only
    declared option is [--token] (one string value); [--help] is added
    by [click] itself. *)
Inductive Parsed : Type :=
| ParsedToken (token : pyval)
| ParsedHelp
| ParsedError (msg : string).

Definition is_option (a : string) : bool :=
  match a with
  | String "-" (String _ _) => true
  | _ => false
  end.

Fixpoint click_parse (token : pyval) (help extra : bool) (args : list string) : Parsed :=
  match args with
  | [] =>
      if help then ParsedHelp
      else if extra then ParsedError "Got unexpected extra argument"
      else ParsedToken token
  | a :: rest =>
      if String.eqb a "--" then
        if help then ParsedHelp
        else match rest with
             | [] => if extra then ParsedError "Got unexpected extra argument"
                     else ParsedToken token
             | _ :: _ => ParsedError "Got unexpected extra argument"
             end
      else if is_option a then
        match split_eq a with
        | ("--token", Some v) => click_parse (PyStr v) help extra rest
        | ("--token", None) =>
            match rest with
            | v :: rest' => click_parse (PyStr v) help extra rest'
            | [] => ParsedError "Option '--token' requires an argument."
            end
        | ("--help", None) => click_parse token true extra rest
        | ("--help", Some _) => ParsedError "Option '--help' does not take a value."
        | _ => ParsedError "No such option"
        end
      else click_parse token help true rest
  end.

(** Invoking the command object that the decorators of lines 120-121
    build: the option's default is the module's [TOKEN]. *)
Definition cli_main (m : Module) (args : list string) : M Runner :=
  match click_parse (TOKEN m) false false args with
  | ParsedToken token => cli token
  | ParsedHelp => raise (ClickExit 0)
  | ParsedError msg => raise (UsageError msg)
  end.

(** [is_ipython] (lines 132-145) *)
Definition is_ipython : M pyval :=
  try_except_ImportError
    (do _ <- import_get_ipython; IPython.get_ipython)
    (fun _ => ret (PyBool false)).

(** The [__main__] block (lines 148-150); [bot = runner.bot] only reads
    an attribute of the runner returned here. *)
Definition main (m : Module) : M Runner :=
  do ip <- is_ipython;
  if py_truthy ip
  then new InteractiveBotRunner (TOKEN m)
  else new BotRunner (TOKEN m).

(** ** Well-formed worlds *)

(** The loop set for the thread is an existing loop object. *)
Definition wf (w : World) : Prop :=
  match current_loop w with
  | Some l => l < length (loops w)
  | None => True
  end.

(** A token is valid when it is a non-empty string. *)
Definition valid_token (token : pyval) : Prop :=
  exists s, token = PyStr s /\ s <> "".

Definition valid_tokenb (token : pyval) : bool :=
  match token with
  | PyStr (String _ _) => true
  | _ => false
  end.

(** The tokens of the claims: "the empty string or not a string". *)
Definition invalid_token (token : pyval) : Prop :=
  token = PyStr "" \/ isinstance_str token = false.

(** The loop [asyncio.get_event_loop()] hands out in world [w]. *)
Definition acquired_loop (w : World) : LoopId :=
  match current_loop w with
  | Some l => l
  | None => length (loops w)
  end.

(** The first two statements of [InteractiveBotRunner.__init__]. *)
Definition acquire_and_debug : M LoopId :=
  do l <- asyncio.get_event_loop;
  do _ <- asyncio.loop.set_debug l true;
  ret l.

(** ** Reading traces *)

Definition is_new_bot (e : Event) : bool :=
  match e with EvNewBot _ => true | _ => false end.

Definition is_bot_run (e : Event) : bool :=
  match e with EvBotRun _ _ => true | _ => false end.

Definition is_create_task (e : Event) : bool :=
  match e with EvCreateTask _ _ => true | _ => false end.

Definition is_task_step (e : Event) : bool :=
  match e with EvTaskStep _ => true | _ => false end.

Definition count (p : Event -> bool) (tr : list Event) : nat :=
  length (List.filter p tr).

(** A world used to run the launcher on concrete inputs: nothing is
    installed, no loop is set, and the bot, once run, never returns. *)
Definition bare_world : World :=
  mkWorld ∅ [] (fun _ => false) IPythonAbsent (fun _ => RunForever) None [] [] 0 0 [].

(** The same host with an event loop already set for the thread (debug
    off), as inside an interactive console. *)
Definition console_world : World :=
  mkWorld ∅ [] (fun _ => false) IPythonActive (fun _ => RunForever)
          (Some 0) [mkLoop false []] [] 0 0 [].

(** A checkout where [src] holds the package [edubot] and nothing is
    installed: running [src/edubot/run.py] as a script succeeds after
    the retry. *)
Definition checkout_world : World :=
  mkWorld {["DISCORD_TOKEN" := "abc"]} ["src/edubot"] (String.eqb "src/edubot/..")
          IPythonAbsent (fun _ => RunReturns) None [] [] 0 0 [].

(** ** [run.py]: default arguments and the module as a whole *)

(** [cls()]: both constructors declare [token: Optional[str] = TOKEN]
    (lines 49 and 94); the default is the value [TOKEN] had when the
    class body was executed, that is the loaded module's. *)
Definition new_default (m : Module) (cls : RunnerClass) : M Runner :=
  new cls (TOKEN m).

(** The body of the module from top to bottom (lines 20-150); [name] is
    the module's [__name__].  The result holds the names bound at the
    end: [TOKEN], and [runner] and [bot] when the [__main__] block ran. *)
Definition exec_module (name : string) (package : pyval) (filepath : string)
  : M (Module * option (Runner * BotId)) :=
  do m <- load_module package filepath;
  if String.eqb name "__main__" then
    do runner <- main m;
    do bot <- getattr_bot runner;
    ret (m, Some (runner, bot))
  else
    ret (m, None).

(** A host where the package [edubot] is installed, [DISCORD_TOKEN] is
    not set, and two loops exist, the second one set for the thread. *)
Definition installed_world : World :=
  mkWorld ∅ ["/site"] (String.eqb "/site") IPythonIdle (fun _ => RunReturns)
          (Some 1) [mkLoop false [0]; mkLoop false []] [mkTask 0 (UserCoro 0)] 0 0 [].

(** * Properties *)

Lemma count_app p tr1 tr2 : count p (tr1 ++ tr2) = count p tr1 + count p tr2.
Proof. unfold count. by rewrite List.filter_app, length_app. Qed.

Lemma bind_Ok {A B} (m : M A) (k : A -> M B) w a w' :
  m w = Ok a w' -> bind m k w = k a w'.
Proof. intros H. unfold bind. by rewrite H. Qed.

Lemma bind_Raise {A B} (m : M A) (k : A -> M B) w e w' :
  m w = Raise e w' -> bind m k w = Raise e w'.
Proof. intros H. unfold bind. by rewrite H. Qed.

Lemma bind_Blocked {A B} (m : M A) (k : A -> M B) w w' :
  m w = Blocked w' -> bind m k w = Blocked w'.
Proof. intros H. unfold bind. by rewrite H. Qed.

(** Advance a [bind] whose first computation is known. *)
Ltac step H :=
  first [ rewrite (bind_Ok _ _ _ _ _ H)
        | rewrite (bind_Raise _ _ _ _ _ H)
        | rewrite (bind_Blocked _ _ _ _ _ H) ].

Lemma bare_world_wf : wf bare_world.
Proof. exact I. Qed.

Lemma console_world_wf : wf console_world.
Proof. unfold wf. simpl. lia. Qed.

(** ** Token validation *)

Lemma valid_tokenb_spec token : valid_tokenb token = true <-> valid_token token.
Proof.
  split.
  - destruct token as [| | |s| | |]; try discriminate.
    destruct s; [discriminate|]. intros _. eexists. split; [reflexivity|discriminate].
  - intros (s & -> & Hs). destruct s; [congruence|reflexivity].
Qed.

Lemma invalid_token_spec token : invalid_token token <-> valid_tokenb token = false.
Proof.
  split.
  - intros [-> | H]; [reflexivity|]. by destruct token.
  - destruct token as [| | |s| | |]; try (intros _; by right).
    destruct s; [by left | discriminate].
Qed.

Lemma validate_token_ok s w :
  s <> "" -> validate_token (PyStr s) w = Ok PyNone w.
Proof. intros Hs. destruct s; [congruence | reflexivity]. Qed.

Lemma validate_token_fails token w :
  invalid_token token ->
  validate_token token w = Raise (AssertionError "No Discord API token could be retrieved") w.
Proof. intros [-> | H]; [reflexivity|]. by destruct token. Qed.

(** The assertion is the only way validation fails: the length of a
    non-string is never asked for. *)
Lemma validate_token_total token w :
  validate_token token w =
  if valid_tokenb token then Ok PyNone w
  else Raise (AssertionError "No Discord API token could be retrieved") w.
Proof. destruct token as [| | |s| | |]; try reflexivity. by destruct s. Qed.

(** ** Acquiring the loop *)

Lemma InteractiveBotRunner_init_unfold self token w :
  InteractiveBotRunner_init self token w =
  (do l <- acquire_and_debug; BotRunner_init (set_r_loop l self) token) w.
Proof.
  unfold InteractiveBotRunner_init, acquire_and_debug, bind, ret.
  destruct (asyncio.get_event_loop w); reflexivity.
Qed.

Lemma acquire_and_debug_spec w :
  wf w ->
  exists w1,
    acquire_and_debug w = Ok (acquired_loop w) w1 /\
    current_loop w1 = Some (acquired_loop w) /\
    loop_debug <$> (loops w1 !! acquired_loop w) = Some true /\
    loop_ready <$> (loops w1 !! acquired_loop w) =
      Some (default [] (loop_ready <$> (loops w !! acquired_loop w))) /\
    length (loops w1) = length (loops w) + (if current_loop w is Some _ then 0 else 1) /\
    trace w1 = trace w ++ [EvGetEventLoop (acquired_loop w); EvSetDebug (acquired_loop w) true] /\
    bots w1 = bots w /\ tasks w1 = tasks w /\
    bot_run_outcome w1 = bot_run_outcome w.
Proof.
  intros Hwf. unfold wf in Hwf.
  unfold acquire_and_debug, acquired_loop, bind, ret, asyncio.get_event_loop, asyncio.loop.set_debug.
  destruct (current_loop w) as [l|] eqn:E; eexists; (split; [reflexivity|]); simpl.
  - rewrite E. destruct (lookup_lt_is_Some_2 (loops w) l Hwf) as [ls Hls].
    rewrite list_lookup_alter, Hls, decide_True by done. simpl.
    rewrite length_alter, <- app_assoc. repeat split; auto with lia.
  - rewrite list_lookup_alter, lookup_app_r, Nat.sub_diag, decide_True by (done || lia).
    simpl. rewrite length_alter, length_app, <- app_assoc. simpl.
    rewrite lookup_ge_None_2 by lia. repeat split; auto.
Qed.

(** ** Construction with an invalid token *)

(** C1: for every token that is the empty string or not a string,
    constructing a runner of either class fails with an AssertionError
    that carries the message "No Discord API token could be retrieved",
    and no bot object has been constructed when it fails: the number of
    bots is unchanged and the events emitted contain no [EvNewBot]. *)
Theorem invalid_token_construction_fails (cls : RunnerClass) (token : pyval) (w : World) :
  invalid_token token ->
  exists w' evs,
    new cls token w =
      Raise (AssertionError "No Discord API token could be retrieved") w' /\
    bots w' = bots w /\
    trace w' = trace w ++ evs /\
    count is_new_bot evs = 0.
Proof.
  intros Hinv. destruct cls; unfold new.
  - exists w, []. unfold BotRunner_init.
    step (validate_token_fails token w Hinv).
    by rewrite app_nil_r.
  - unfold InteractiveBotRunner_init, BotRunner_init, bind, asyncio.get_event_loop, asyncio.loop.set_debug.
    destruct (current_loop w); rewrite validate_token_fails by done;
      eexists; eexists; (split; [reflexivity|]); simpl;
      rewrite <- app_assoc; repeat split; reflexivity.
Qed.

Lemma invalid_token_construction_fails_witness :
  invalid_token (PyInt 7) /\
  exists w' evs,
    new InteractiveBotRunner (PyInt 7) console_world =
      Raise (AssertionError "No Discord API token could be retrieved") w' /\
    bots w' = bots console_world /\
    trace w' = trace console_world ++ evs /\
    count is_new_bot evs = 0.
Proof.
  split; [right; reflexivity|].
  apply (invalid_token_construction_fails InteractiveBotRunner (PyInt 7) console_world).
  right; reflexivity.
Defined.

Example BotRunner_None :
  new BotRunner PyNone bare_world =
  Raise (AssertionError "No Discord API token could be retrieved") bare_world.
Proof. reflexivity. Qed.

Example BotRunner_empty :
  new BotRunner (PyStr "") bare_world =
  Raise (AssertionError "No Discord API token could be retrieved") bare_world.
Proof. reflexivity. Qed.

(** ** Blocking construction *)

(** C2: for every non-empty string token, constructing a [BotRunner]
    passes validation, constructs exactly one bot object and calls the
    blocking [run] of that bot exactly once, with that token.  Whether
    the constructor then returns, raises or blocks is the outcome of that
    one call. *)
Theorem BotRunner_constructs_and_runs_once (s : string) (w : World) :
  s <> "" ->
  let token := PyStr s in
  let b := bots w in
  let w' := final_world (new BotRunner token w) in
  validate_token token w = Ok PyNone w /\
  trace w' = trace w ++ [EvNewBot b; EvBotRun b token] /\
  bots w' = S (bots w) /\
  count is_new_bot (trace w') = S (count is_new_bot (trace w)) /\
  count is_bot_run (trace w') = S (count is_bot_run (trace w)) /\
  new BotRunner token w =
    match bot_run_outcome w token with
    | RunReturns => Ok (mkRunner BotRunner None (Some b)) w'
    | RunRaises e => Raise e w'
    | RunForever => Blocked w'
    end.
Proof.
  intros Hs token b w'. split; [by apply validate_token_ok|].
  assert (Hnew : new BotRunner token w =
    match bot_run_outcome w token with
    | RunReturns =>
        Ok (mkRunner BotRunner None (Some b))
           (log (EvBotRun b token) (log (EvNewBot b) (set_bots (S b) w)))
    | RunRaises e => Raise e (log (EvBotRun b token) (log (EvNewBot b) (set_bots (S b) w)))
    | RunForever => Blocked (log (EvBotRun b token) (log (EvNewBot b) (set_bots (S b) w)))
    end).
  { unfold new, BotRunner_init.
    step (validate_token_ok s w Hs).
    unfold bind, EduBot.new, Runner_run, BotRunner_run, bind, getattr_bot, ret,
      EduBot.run; simpl.
    by destruct (bot_run_outcome w token). }
  assert (Hw : w' = log (EvBotRun b token) (log (EvNewBot b) (set_bots (S b) w))).
  { unfold w'. rewrite Hnew. by destruct (bot_run_outcome w token). }
  clearbody w'. subst w'. simpl. rewrite <- app_assoc. simpl.
  rewrite !count_app.
  change (count is_new_bot [EvNewBot b; EvBotRun b token]) with 1.
  change (count is_bot_run [EvNewBot b; EvBotRun b token]) with 1.
  repeat split; try lia. exact Hnew.
Qed.

Lemma BotRunner_constructs_and_runs_once_witness :
  "tok" <> "" /\
  let token := PyStr "tok" in
  let b := bots bare_world in
  let w' := final_world (new BotRunner token bare_world) in
  validate_token token bare_world = Ok PyNone bare_world /\
  trace w' = trace bare_world ++ [EvNewBot b; EvBotRun b token] /\
  bots w' = S (bots bare_world) /\
  count is_new_bot (trace w') = S (count is_new_bot (trace bare_world)) /\
  count is_bot_run (trace w') = S (count is_bot_run (trace bare_world)) /\
  new BotRunner token bare_world =
    match bot_run_outcome bare_world token with
    | RunReturns => Ok (mkRunner BotRunner None (Some b)) w'
    | RunRaises e => Raise e w'
    | RunForever => Blocked w'
    end.
Proof.
  split; [discriminate|].
  apply (BotRunner_constructs_and_runs_once "tok" bare_world). discriminate.
Defined.

(** ** Scheduling on the loop *)

Lemma loop_create_task_spec l c w :
  let t := length (tasks w) in
  exists w',
    asyncio.loop.create_task l (PyCoro c) w = Ok (PyTask t) w' /\
    tasks w' = tasks w ++ [mkTask l c] /\
    tasks w' !! t = Some (mkTask l c) /\
    (forall ls, loops w !! l = Some ls ->
                loops w' !! l = Some (mkLoop (loop_debug ls) (loop_ready ls ++ [t]))) /\
    (forall l', l' <> l -> loops w' !! l' = loops w !! l') /\
    trace w' = trace w ++ [EvCreateTask l t] /\
    current_loop w' = current_loop w /\ bots w' = bots w.
Proof.
  intros t. eexists. split; [reflexivity|]. simpl. repeat split.
  - rewrite lookup_app_r, Nat.sub_diag by lia. reflexivity.
  - intros ls Hls. by rewrite list_lookup_alter, Hls, decide_True.
  - intros l' Hne. by rewrite list_lookup_alter_ne.
Qed.

(** A runner whose attributes [loop] and [bot] are set, as they are on
    every [InteractiveBotRunner] from the moment [__init__] calls
    [self.run]. *)
Section RunnerWithLoopAndBot.

Variable self : Runner.
Variables l b : nat.
Hypothesis Hloop : r_loop self = Some l.
Hypothesis Hbot : r_bot self = Some b.

Lemma create_task_unfold coro w :
  create_task self coro w = asyncio.loop.create_task l coro w.
Proof. unfold create_task, getattr_loop. by rewrite Hloop. Qed.

Lemma InteractiveBotRunner_run_unfold token w :
  InteractiveBotRunner_run self token w =
  (do _ <- asyncio.loop.create_task l (PyCoro (BotStart b token)); ret PyNone)
    (log (EvBotStart b token) w).
Proof.
  unfold InteractiveBotRunner_run, getattr_bot. rewrite Hbot.
  unfold bind at 1. unfold ret at 1. unfold bind at 1. unfold EduBot.start.
  unfold bind. by rewrite create_task_unfold.
Qed.

(** What the blocking variant does in a world where the bot never
    disconnects: the call does not come back. *)
Lemma BotRunner_run_blocks token w :
  bot_run_outcome w token = RunForever ->
  BotRunner_run self token w = Blocked (log (EvBotRun b token) w).
Proof.
  intros Hrun. unfold BotRunner_run, getattr_bot. rewrite Hbot.
  unfold bind, ret, EduBot.run. by rewrite Hrun.
Qed.

(** What [InteractiveBotRunner.run] does. *)
Lemma InteractiveBotRunner_run_spec token w :
  let t := length (tasks w) in
  exists w',
    create_task self (PyCoro (BotStart b token)) (log (EvBotStart b token) w)
      = Ok (PyTask t) w' /\
    InteractiveBotRunner_run self token w = Ok PyNone w' /\
    tasks w' = tasks w ++ [mkTask l (BotStart b token)] /\
    (forall ls, loops w !! l = Some ls ->
                loops w' !! l = Some (mkLoop (loop_debug ls) (loop_ready ls ++ [t]))) /\
    length (loops w') = length (loops w) /\
    trace w' = trace w ++ [EvBotStart b token; EvCreateTask l t] /\
    current_loop w' = current_loop w /\ bots w' = bots w.
Proof.
  intros t.
  destruct (loop_create_task_spec l (BotStart b token) (log (EvBotStart b token) w))
    as (w' & Hct & Htasks & _ & Hq & _ & Htr & Hcur & Hbots).
  exists w'. rewrite create_task_unfold, InteractiveBotRunner_run_unfold.
  step Hct. simpl in *. rewrite Htr, <- app_assoc.
  repeat split; auto.
  unfold asyncio.loop.create_task in Hct. injection Hct as <-. simpl.
  by rewrite length_alter.
Qed.

(** C3: [InteractiveBotRunner.run] does not block.  For every token (a
    valid one in particular) and whatever the blocking entry point of
    the bot would do, the call returns; it creates the coroutine of
    [bot.start(token)] and schedules it as exactly one task, the last in
    the ready queue of the runner's loop; no task is stepped and
    [bot.run] is not called. *)
Theorem interactive_run_schedules_without_blocking
    (ls : LoopState) (token : pyval) (w : World) :
  loops w !! l = Some ls ->
  let t := length (tasks w) in
  exists v w',
    InteractiveBotRunner_run self token w = Ok v w' /\
    tasks w' = tasks w ++ [mkTask l (BotStart b token)] /\
    loops w' !! l = Some (mkLoop (loop_debug ls) (loop_ready ls ++ [t])) /\
    trace w' = trace w ++ [EvBotStart b token; EvCreateTask l t] /\
    count is_create_task (trace w') = S (count is_create_task (trace w)) /\
    count is_task_step (trace w') = count is_task_step (trace w) /\
    count is_bot_run (trace w') = count is_bot_run (trace w).
Proof.
  intros Hls t.
  destruct (InteractiveBotRunner_run_spec token w)
    as (w' & _ & Hrun & Htasks & Hq & _ & Htr & _).
  exists PyNone, w'. rewrite Htr, !count_app.
  unfold count. simpl. repeat split; auto with lia.
Qed.

(** The task that [run] scheduled is executed by the host: one iteration
    of the host's loop on an otherwise idle loop steps exactly it. *)
Lemma host_steps_scheduled_task d token w :
  loops w !! l = Some (mkLoop d []) ->
  exists w1 w2,
    InteractiveBotRunner_run self token w = Ok PyNone w1 /\
    asyncio.loop.run_once l w1 = Ok tt w2 /\
    trace w2 = trace w1 ++ [EvTaskStep (length (tasks w))].
Proof.
  intros Hls.
  destruct (InteractiveBotRunner_run_spec token w) as (w' & _ & Hrun & _ & Hq & _).
  exists w'. eexists. split; [exact Hrun|].
  unfold asyncio.loop.run_once. rewrite (Hq _ Hls). simpl. split; reflexivity.
Qed.

(** C9: [InteractiveBotRunner.run] returns [None]: the handle that the
    inner call of [create_task] returns is a task, and it is dropped. *)
Theorem interactive_run_returns_None (token : pyval) (w : World) :
  exists t w',
    create_task self (PyCoro (BotStart b token)) (log (EvBotStart b token) w)
      = Ok (PyTask t) w' /\
    InteractiveBotRunner_run self token w = Ok PyNone w' /\
    PyNone <> PyTask t.
Proof.
  destruct (InteractiveBotRunner_run_spec token w) as (w' & Hct & Hrun & _).
  eexists. exists w'. split; [exact Hct|]. split; [exact Hrun|discriminate].
Qed.

End RunnerWithLoopAndBot.

Lemma interactive_run_schedules_without_blocking_witness :
  let self := mkRunner InteractiveBotRunner (Some 0) (Some 0) in
  let w := console_world in
  let token := PyStr "tok" in
  r_loop self = Some 0 /\ r_bot self = Some 0 /\ loops w !! 0 = Some (mkLoop false []) /\
  exists v w',
    InteractiveBotRunner_run self token w = Ok v w' /\
    tasks w' = tasks w ++ [mkTask 0 (BotStart 0 token)] /\
    loops w' !! 0 = Some (mkLoop false [0]) /\
    trace w' = trace w ++ [EvBotStart 0 token; EvCreateTask 0 0] /\
    count is_create_task (trace w') = S (count is_create_task (trace w)) /\
    count is_task_step (trace w') = count is_task_step (trace w) /\
    count is_bot_run (trace w') = count is_bot_run (trace w).
Proof.
  intros self w token. split; [reflexivity|]. split; [reflexivity|]. split; [reflexivity|].
  exact (interactive_run_schedules_without_blocking self 0 0 eq_refl eq_refl
           (mkLoop false []) token w eq_refl).
Defined.

Lemma interactive_run_returns_None_witness :
  let self := mkRunner InteractiveBotRunner (Some 0) (Some 0) in
  r_loop self = Some 0 /\ r_bot self = Some 0 /\
  exists t w',
    create_task self (PyCoro (BotStart 0 (PyStr "tok")))
                (log (EvBotStart 0 (PyStr "tok")) console_world)
      = Ok (PyTask t) w' /\
    InteractiveBotRunner_run self (PyStr "tok") console_world = Ok PyNone w' /\
    PyNone <> PyTask t.
Proof.
  intros self. split; [reflexivity|]. split; [reflexivity|].
  exact (interactive_run_returns_None self 0 0 eq_refl eq_refl (PyStr "tok") console_world).
Defined.

(** ** Interactive construction *)

Lemma interactive_new_unfold token w :
  new InteractiveBotRunner token w =
  (do l <- acquire_and_debug;
   BotRunner_init (mkRunner InteractiveBotRunner (Some l) None) token) w.
Proof. unfold new. by rewrite InteractiveBotRunner_init_unfold. Qed.

Lemma acquire_and_debug_total w :
  exists w1, acquire_and_debug w = Ok (acquired_loop w) w1.
Proof.
  unfold acquire_and_debug, acquired_loop, bind, asyncio.get_event_loop.
  destruct (current_loop w); eexists; reflexivity.
Qed.

(** A constructed interactive runner holds the loop that was acquired
    when its construction began. *)
Lemma interactive_new_Ok_inv token w0 self w1 :
  new InteractiveBotRunner token w0 = Ok self w1 ->
  r_cls self = InteractiveBotRunner /\ r_loop self = Some (acquired_loop w0) /\
  is_Some (r_bot self).
Proof.
  rewrite interactive_new_unfold.
  destruct (acquire_and_debug_total w0) as (wa & Ha).
  step Ha. unfold BotRunner_init, bind.
  rewrite validate_token_total. destruct (valid_tokenb token); [|discriminate].
  unfold EduBot.new. simpl.
  unfold ret. intros [= <- _]. simpl. eauto.
Qed.

(** C5: on a constructed [InteractiveBotRunner], [create_task] applied
    to a coroutine returns a task handle; the task wraps that coroutine
    and belongs to the loop acquired at construction, which is the
    runner's [self.loop], and it is appended to the ready queue of that
    very loop, every other loop being left as it was. *)
Theorem create_task_uses_runner_loop
    (token : pyval) (w0 w1 : World) (self : Runner) (c : coroutine) (w : World) :
  new InteractiveBotRunner token w0 = Ok self w1 ->
  let l := acquired_loop w0 in
  let t := length (tasks w) in
  r_loop self = Some l /\
  exists w',
    create_task self (PyCoro c) w = Ok (PyTask t) w' /\
    tasks w' !! t = Some (mkTask l c) /\
    (forall ls, loops w !! l = Some ls ->
                loops w' !! l = Some (mkLoop (loop_debug ls) (loop_ready ls ++ [t]))) /\
    (forall l', l' <> l -> loops w' !! l' = loops w !! l') /\
    trace w' = trace w ++ [EvCreateTask l t].
Proof.
  intros Hnew l t. destruct (interactive_new_Ok_inv _ _ _ _ Hnew) as (_ & Hl & _).
  split; [exact Hl|].
  destruct (loop_create_task_spec l c w) as (w' & Hct & _ & Ht & Hq & Hother & Htr & _).
  exists w'. rewrite (create_task_unfold _ _ Hl). auto.
Qed.

Lemma create_task_uses_runner_loop_witness :
  let self := mkRunner InteractiveBotRunner (Some 0) (Some 0) in
  let w1 := final_world (new InteractiveBotRunner (PyStr "tok") console_world) in
  new InteractiveBotRunner (PyStr "tok") console_world = Ok self w1 /\
  r_loop self = Some 0 /\
  exists w',
    create_task self (PyCoro (UserCoro 5)) w1 = Ok (PyTask 1) w' /\
    tasks w' !! 1 = Some (mkTask 0 (UserCoro 5)) /\
    (forall ls, loops w1 !! 0 = Some ls ->
                loops w' !! 0 = Some (mkLoop (loop_debug ls) (loop_ready ls ++ [1]))) /\
    (forall l', l' <> 0 -> loops w' !! l' = loops w1 !! l') /\
    trace w' = trace w1 ++ [EvCreateTask 0 1].
Proof.
  intros self w1. split; [reflexivity|].
  exact (create_task_uses_runner_loop (PyStr "tok") console_world w1 self (UserCoro 5) w1
           eq_refl).
Defined.

(** A task can only be made of a coroutine. *)
Lemma create_task_not_coroutine self l w :
  r_loop self = Some l ->
  create_task self PyNone w = Raise (TypeError "a coroutine was expected") w.
Proof. intros Hl. by rewrite (create_task_unfold _ _ Hl). Qed.

(** C7: constructing an [InteractiveBotRunner] with a valid token
    acquires the loop set for the thread, or a new loop when none is
    set, and stores it as [self.loop]; it turns debug mode on for that
    loop before the parent constructor builds the bot; the run that
    follows is the scheduled one: the start coroutine becomes a task on
    that loop, [bot.run] is not called, and the constructor returns
    whatever the blocking entry point would do. *)
Theorem interactive_construction (s : string) (w : World) :
  s <> "" -> wf w ->
  let token := PyStr s in
  let l := acquired_loop w in
  let b := bots w in
  let t := length (tasks w) in
  exists w',
    new InteractiveBotRunner token w
      = Ok (mkRunner InteractiveBotRunner (Some l) (Some b)) w' /\
    (forall l0, current_loop w = Some l0 -> l = l0) /\
    (current_loop w = None ->
       loops w !! l = None /\ length (loops w') = S (length (loops w))) /\
    current_loop w' = Some l /\
    loop_debug <$> (loops w' !! l) = Some true /\
    loop_ready <$> (loops w' !! l)
      = Some (default [] (loop_ready <$> (loops w !! l)) ++ [t]) /\
    tasks w' = tasks w ++ [mkTask l (BotStart b token)] /\
    trace w' = trace w ++ [EvGetEventLoop l; EvSetDebug l true; EvNewBot b;
                           EvBotStart b token; EvCreateTask l t] /\
    count is_bot_run (trace w') = count is_bot_run (trace w).
Proof.
  intros Hs Hwf token l b t.
  destruct (acquire_and_debug_spec w Hwf)
    as (w1 & Ha & Hcur & Hdbg & Hrdy & Hlen & Htr & Hbots & Htasks & _).
  fold l in Ha, Hcur, Hdbg, Hrdy, Htr.
  destruct (loops w1 !! l) as [ls1|] eqn:Hls1; [|discriminate].
  simpl in Hdbg, Hrdy. injection Hdbg as Hdbg. injection Hrdy as Hrdy.
  set (w2 := log (EvNewBot b) (set_bots (S b) w1)).
  set (self := mkRunner InteractiveBotRunner (Some l) (Some b)).
  destruct (InteractiveBotRunner_run_spec self l b eq_refl eq_refl token w2)
    as (w' & _ & Hrun & Htasks' & Hq & Hlen' & Htr' & Hcur' & _).
  exists w'. rewrite interactive_new_unfold. step Ha.
  unfold BotRunner_init. step (validate_token_ok s w1 Hs).
  unfold bind at 1. unfold EduBot.new. rewrite Hbots. fold b. fold w2.
  change (set_r_bot b _) with self.
  change (Runner_run self token) with (InteractiveBotRunner_run self token).
  step Hrun. split; [reflexivity|].
  assert (Hw2 : loops w2 = loops w1 /\ tasks w2 = tasks w1 /\
                trace w2 = trace w1 ++ [EvNewBot b] /\ current_loop w2 = current_loop w1)
    by (unfold w2; simpl; auto).
  destruct Hw2 as (Hl2 & Ht2 & Htr2 & Hc2).
  rewrite Hl2 in Hq, Hlen'. rewrite Ht2, Htasks in Htasks', Hq, Htr'. fold t in Hq, Htr'.
  rewrite (Hq _ Hls1). simpl. rewrite Hdbg, Hrdy.
  assert (Htr'' : trace w' = trace w ++ [EvGetEventLoop l; EvSetDebug l true; EvNewBot b;
                                         EvBotStart b token; EvCreateTask l t]).
  { rewrite Htr', Htr2, Htr, <- !app_assoc. reflexivity. }
  rewrite Htr'', count_app. unfold count at 2. simpl.
  repeat split; auto with lia; try congruence.
  - intros l0 H0. unfold l, acquired_loop. by rewrite H0.
  - unfold l, acquired_loop. rewrite H. by apply lookup_ge_None_2.
  - rewrite Hlen', Hlen, H. lia.
Qed.

Lemma interactive_construction_witness :
  "tok" <> "" /\ wf bare_world /\
  exists w',
    new InteractiveBotRunner (PyStr "tok") bare_world
      = Ok (mkRunner InteractiveBotRunner (Some 0) (Some 0)) w' /\
    (forall l0, current_loop bare_world = Some l0 -> 0 = l0) /\
    (current_loop bare_world = None ->
       loops bare_world !! 0 = None /\ length (loops w') = S (length (loops bare_world))) /\
    current_loop w' = Some 0 /\
    loop_debug <$> (loops w' !! 0) = Some true /\
    loop_ready <$> (loops w' !! 0) = Some [0] /\
    tasks w' = tasks bare_world ++ [mkTask 0 (BotStart 0 (PyStr "tok"))] /\
    trace w' = trace bare_world ++ [EvGetEventLoop 0; EvSetDebug 0 true; EvNewBot 0;
                                    EvBotStart 0 (PyStr "tok"); EvCreateTask 0 0] /\
    count is_bot_run (trace w') = count is_bot_run (trace bare_world).
Proof.
  split; [discriminate|]. split; [exact bare_world_wf|].
  exact (interactive_construction "tok" bare_world ltac:(discriminate) bare_world_wf).
Defined.

(** In the world where [bot.run] never returns, the blocking constructor
    does not return and the interactive one does. *)
Example BotRunner_blocks :
  new BotRunner (PyStr "tok") bare_world =
  Blocked (log (EvBotRun 0 (PyStr "tok")) (log (EvNewBot 0) (set_bots 1 bare_world))).
Proof. reflexivity. Qed.

Example InteractiveBotRunner_returns :
  exists w', new InteractiveBotRunner (PyStr "tok") bare_world
             = Ok (mkRunner InteractiveBotRunner (Some 0) (Some 0)) w'.
Proof. eexists. cbv. reflexivity. Qed.

(** C10: constructing an [InteractiveBotRunner] with an invalid token is
    not atomic.  The loop is acquired and its debug flag set to [True]
    first; validation fails only then, and the flag stays set on the
    borrowed loop although the construction has failed. *)
Theorem interactive_invalid_token_leaves_debug_on (token : pyval) (w : World) :
  invalid_token token -> wf w ->
  let l := acquired_loop w in
  exists w',
    new InteractiveBotRunner token w =
      Raise (AssertionError "No Discord API token could be retrieved") w' /\
    (forall l0, current_loop w = Some l0 -> l = l0) /\
    current_loop w' = Some l /\
    loop_debug <$> (loops w' !! l) = Some true /\
    trace w' = trace w ++ [EvGetEventLoop l; EvSetDebug l true].
Proof.
  intros Hinv Hwf l.
  destruct (acquire_and_debug_spec w Hwf) as (w1 & Ha & Hcur & Hdbg & _ & _ & Htr & _).
  exists w1. rewrite interactive_new_unfold. step Ha.
  unfold BotRunner_init. step (validate_token_fails token w1 Hinv).
  repeat split; auto.
  intros l0 H0. unfold l, acquired_loop. by rewrite H0.
Qed.

Lemma interactive_invalid_token_leaves_debug_on_witness :
  invalid_token PyNone /\ wf console_world /\
  loop_debug <$> (loops console_world !! 0) = Some false /\
  exists w',
    new InteractiveBotRunner PyNone console_world =
      Raise (AssertionError "No Discord API token could be retrieved") w' /\
    (forall l0, current_loop console_world = Some l0 -> 0 = l0) /\
    current_loop w' = Some 0 /\
    loop_debug <$> (loops w' !! 0) = Some true /\
    trace w' = trace console_world ++ [EvGetEventLoop 0; EvSetDebug 0 true].
Proof.
  split; [right; reflexivity|]. split; [exact console_world_wf|]. split; [reflexivity|].
  exact (interactive_invalid_token_leaves_debug_on PyNone console_world
           (or_intror eq_refl) console_world_wf).
Defined.

(** ** The environment probe *)

Lemma is_ipython_cases w :
  is_ipython w =
  match ipython w with
  | IPythonAbsent => Ok (PyBool false) (set_exn_serial (S (exn_serial w)) w)
  | IPythonIdle => Ok PyNone w
  | IPythonActive => Ok PyShell w
  end.
Proof.
  unfold is_ipython, try_except_ImportError, bind, import_get_ipython, IPython.get_ipython, ret.
  by destruct (ipython w) eqn:E; simpl; rewrite ?E.
Qed.

(** C6: when no interactive console is running, [is_ipython] returns a
    falsy value and does not raise: [False] when the IPython package is
    absent, [None] when it is installed and idle.  Nothing is emitted and
    no loop or bot is touched. *)
Theorem is_ipython_falsy_without_console (w : World) :
  ipython w <> IPythonActive ->
  exists v w',
    is_ipython w = Ok v w' /\
    py_truthy v = false /\
    (ipython w = IPythonAbsent -> v = PyBool false) /\
    trace w' = trace w /\ loops w' = loops w /\ bots w' = bots w.
Proof.
  intros Hno. rewrite is_ipython_cases.
  destruct (ipython w); [| |congruence]; eexists; eexists;
    (split; [reflexivity|]); repeat split; congruence.
Qed.

Lemma is_ipython_falsy_without_console_witness :
  ipython bare_world <> IPythonActive /\
  exists v w',
    is_ipython bare_world = Ok v w' /\
    py_truthy v = false /\
    (ipython bare_world = IPythonAbsent -> v = PyBool false) /\
    trace w' = trace bare_world /\ loops w' = loops bare_world /\ bots w' = bots bare_world.
Proof.
  split; [discriminate|].
  apply (is_ipython_falsy_without_console bare_world). discriminate.
Defined.

(** The probe never raises, and is truthy exactly inside a console. *)
Lemma is_ipython_truthy w :
  exists v w', is_ipython w = Ok v w' /\
               (py_truthy v = true <-> ipython w = IPythonActive).
Proof.
  rewrite is_ipython_cases.
  destruct (ipython w); eexists; eexists; (split; [reflexivity|]); simpl; split; congruence.
Qed.

(** The [__main__] block picks the interactive runner exactly inside a
    console. *)
Lemma main_choice m w :
  main m w =
  match ipython w with
  | IPythonActive => new InteractiveBotRunner (TOKEN m) w
  | IPythonIdle => new BotRunner (TOKEN m) w
  | IPythonAbsent => new BotRunner (TOKEN m) (set_exn_serial (S (exn_serial w)) w)
  end.
Proof.
  unfold main, bind. rewrite is_ipython_cases. by destruct (ipython w).
Qed.

(** ** Importing the bot package *)

Example dirname_nested :
  os.path.dirname "/home/u/EduBot/src/edubot/run.py" = "/home/u/EduBot/src/edubot".
Proof. reflexivity. Qed.

Example dirname_bare : os.path.dirname "run.py" = "".
Proof. reflexivity. Qed.

Example dirname_root : os.path.dirname "/run.py" = "/".
Proof. reflexivity. Qed.

Example dirname_slashes : os.path.dirname "src//run.py" = "src".
Proof. reflexivity. Qed.

Example path_join_parent :
  os.path.join (os.path.dirname "src/edubot/run.py") ".." = "src/edubot/..".
Proof. reflexivity. Qed.

Example path_join_empty : os.path.join (os.path.dirname "run.py") ".." = "..".
Proof. reflexivity. Qed.

Lemma load_module_import_ok package filepath w :
  existsb (fs_has_edubot w) (sys_path w) = true ->
  load_module package filepath w =
  Ok (mkModule (match environ w !! "DISCORD_TOKEN" with
                | Some v => PyStr v
                | None => PyNone
                end))
     (log (EvImportEduBot true) w).
Proof.
  intros Hok. unfold load_module, bind, try_except_ImportError, import_EduBot.
  by rewrite Hok.
Qed.

(** C8: suppose the bot package fails to import.  When the launcher is
    imported as a package ([__package__] is truthy), the ImportError of
    that first attempt is raised again, the same exception object, and
    the search path is left alone; one import was attempted.  When the
    launcher runs as a local script ([__package__] is [None] or empty),
    the parent of the directory of [run.py] is put first on the search
    path and the import is tried a second time; a failure of the second
    attempt is a new exception. *)
Theorem import_failure_handling (package : pyval) (filepath : string) (w : World) :
  existsb (fs_has_edubot w) (sys_path w) = false ->
  let e := ImportError (exn_serial w) "edubot" in
  let w1 := log (EvImportEduBot false) (set_exn_serial (S (exn_serial w)) w) in
  let d := os.path.join (os.path.dirname filepath) ".." in
  let w2 := set_sys_path (d :: sys_path w) w1 in
  let r := load_module package filepath w in
  import_EduBot w = Raise e w1 /\
  r = (if py_truthy package then Raise e w1
       else if fs_has_edubot w d
       then Ok (mkModule (match environ w !! "DISCORD_TOKEN" with
                          | Some v => PyStr v
                          | None => PyNone
                          end))
               (log (EvImportEduBot true) w2)
       else Raise (ImportError (S (exn_serial w)) "edubot")
                  (log (EvImportEduBot false) (set_exn_serial (S (S (exn_serial w))) w2))) /\
  sys_path (final_world r) = (if py_truthy package then sys_path w else d :: sys_path w) /\
  trace (final_world r) =
    trace w ++ (if py_truthy package then [EvImportEduBot false]
                else [EvImportEduBot false; EvImportEduBot (fs_has_edubot w d)]).
Proof.
  intros Hfail e w1 d w2 r.
  assert (Himp : import_EduBot w = Raise e w1).
  { unfold import_EduBot. by rewrite Hfail. }
  split; [exact Himp|].
  assert (Hr : r = (if py_truthy package then Raise e w1
       else if fs_has_edubot w d
       then Ok (mkModule (match environ w !! "DISCORD_TOKEN" with
                          | Some v => PyStr v
                          | None => PyNone
                          end))
               (log (EvImportEduBot true) w2)
       else Raise (ImportError (S (exn_serial w)) "edubot")
                  (log (EvImportEduBot false) (set_exn_serial (S (S (exn_serial w))) w2)))).
  { unfold r, load_module, bind, try_except_ImportError. rewrite Himp. unfold e.
    destruct (py_truthy package); simpl; [reflexivity|].
    unfold import_EduBot. simpl. rewrite !drop_0. fold d. rewrite Hfail, orb_false_r.
    by destruct (fs_has_edubot w d). }
  split; [exact Hr|]. clearbody r. subst r.
  destruct (py_truthy package); simpl; [done|].
  destruct (fs_has_edubot w d); simpl; by rewrite <- app_assoc.
Qed.

Lemma import_failure_handling_witness :
  let w := bare_world in
  let e := ImportError 0 "edubot" in
  let w1 := log (EvImportEduBot false) (set_exn_serial 1 w) in
  let r := load_module (PyStr "edubot") "src/edubot/run.py" w in
  existsb (fs_has_edubot w) (sys_path w) = false /\
  import_EduBot w = Raise e w1 /\
  r = Raise e w1 /\
  sys_path (final_world r) = sys_path w /\
  trace (final_world r) = trace w ++ [EvImportEduBot false].
Proof.
  intros w e w1 r. split; [reflexivity|].
  exact (import_failure_handling (PyStr "edubot") "src/edubot/run.py" w eq_refl).
Defined.

Example script_import_retried :
  exists w', load_module PyNone "src/edubot/run.py" checkout_world
             = Ok (mkModule (PyStr "abc")) w' /\
             sys_path w' = ["src/edubot/.."; "src/edubot"] /\
             trace w' = [EvImportEduBot false; EvImportEduBot true].
Proof. eexists. split; [vm_compute; reflexivity|]. split; reflexivity. Qed.

Example package_import_fatal :
  exists w', load_module (PyStr "edubot") "src/edubot/run.py" checkout_world
             = Raise (ImportError 0 "edubot") w' /\
             sys_path w' = ["src/edubot"].
Proof. eexists. split; [vm_compute; reflexivity|]. reflexivity. Qed.

(** ** The command line *)

Lemma load_module_TOKEN package filepath w0 m w1 :
  load_module package filepath w0 = Ok m w1 ->
  TOKEN m = match environ w0 !! "DISCORD_TOKEN" with
            | Some v => PyStr v
            | None => PyNone
            end.
Proof.
  destruct (existsb (fs_has_edubot w0) (sys_path w0)) eqn:Himp.
  - rewrite (load_module_import_ok _ _ _ Himp). by intros [= <- _].
  - unfold load_module, bind, try_except_ImportError, import_EduBot. rewrite Himp.
    destruct (py_truthy package); simpl; [discriminate|]. rewrite !drop_0.
    destruct (fs_has_edubot w0 _); simpl; [|rewrite Himp; discriminate].
    by intros [= <- _].
Qed.

Lemma click_parse_no_args token : click_parse token false false [] = ParsedToken token.
Proof. reflexivity. Qed.

Lemma click_parse_token_eq token X :
  click_parse token false false ["--token=" +:+ X] = ParsedToken (PyStr X).
Proof. reflexivity. Qed.

Lemma click_parse_token_next token X :
  click_parse token false false ["--token"; X] = ParsedToken (PyStr X).
Proof. reflexivity. Qed.

(** C4: the command, invoked without arguments, constructs the
    [BotRunner] with the token that the module read from the environment
    variable [DISCORD_TOKEN] when it was loaded ([None] if unset);
    invoked with [--token=X], it constructs the [BotRunner] with [X],
    whatever the module's [TOKEN] and the environment are. *)
Theorem cli_token_source
    (package : pyval) (filepath : string) (w0 w1 : World) (m : Module) :
  load_module package filepath w0 = Ok m w1 ->
  (forall w, cli_main m [] w =
             new BotRunner (match environ w0 !! "DISCORD_TOKEN" with
                            | Some v => PyStr v
                            | None => PyNone
                            end) w) /\
  (forall (m' : Module) (X : string) (w : World),
     cli_main m' ["--token=" +:+ X] w = new BotRunner (PyStr X) w).
Proof.
  intros Hload. split.
  - intros w. unfold cli_main. rewrite click_parse_no_args.
    by rewrite (load_module_TOKEN _ _ _ _ _ Hload).
  - intros m' X w. unfold cli_main. by rewrite click_parse_token_eq.
Qed.

Lemma cli_token_source_witness :
  let w0 := checkout_world in
  let m := mkModule (PyStr "abc") in
  let w1 := final_world (load_module PyNone "src/edubot/run.py" w0) in
  load_module PyNone "src/edubot/run.py" w0 = Ok m w1 /\
  (forall w, cli_main m [] w = new BotRunner (PyStr "abc") w) /\
  (forall (m' : Module) (X : string) (w : World),
     cli_main m' ["--token=" +:+ X] w = new BotRunner (PyStr X) w).
Proof.
  intros w0 m w1.
  assert (Hload : load_module PyNone "src/edubot/run.py" w0 = Ok m w1)
    by (vm_compute; reflexivity).
  split; [exact Hload|].
  exact (cli_token_source PyNone "src/edubot/run.py" w0 w1 m Hload).
Defined.

Example cli_flag_beats_environment :
  cli_main (mkModule (PyStr "abc")) ["--token=xyz"] checkout_world =
  Ok (mkRunner BotRunner None (Some 0))
     (log (EvBotRun 0 (PyStr "xyz")) (log (EvNewBot 0) (set_bots 1 checkout_world))).
Proof. reflexivity. Qed.

Example cli_unset_environment :
  cli_main (mkModule PyNone) [] bare_world =
  Raise (AssertionError "No Discord API token could be retrieved") bare_world.
Proof. reflexivity. Qed.

Example cli_empty_flag :
  cli_main (mkModule (PyStr "abc")) ["--token="] checkout_world =
  Raise (AssertionError "No Discord API token could be retrieved") checkout_world.
Proof. reflexivity. Qed.

Example cli_help :
  cli_main (mkModule (PyStr "abc")) ["--help"] checkout_world = Raise (ClickExit 0) checkout_world.
Proof. reflexivity. Qed.

Example cli_unknown_option :
  cli_main (mkModule (PyStr "abc")) ["--tok=xyz"] checkout_world =
  Raise (UsageError "No such option") checkout_world.
Proof. reflexivity. Qed.

(** * Further properties of the launcher *)

(** ** The two constructors, in full *)

Lemma new_BotRunner_eq token w :
  let b := bots w in
  let w2 := log (EvBotRun b token) (log (EvNewBot b) (set_bots (S b) w)) in
  new BotRunner token w =
  if valid_tokenb token then
    match bot_run_outcome w token with
    | RunReturns => Ok (mkRunner BotRunner None (Some b)) w2
    | RunRaises e => Raise e w2
    | RunForever => Blocked w2
    end
  else Raise (AssertionError "No Discord API token could be retrieved") w.
Proof.
  intros b w2. unfold new, BotRunner_init, bind at 1. rewrite validate_token_total.
  destruct (valid_tokenb token); [|reflexivity].
  unfold bind, EduBot.new, Runner_run, BotRunner_run, bind, getattr_bot, ret, EduBot.run.
  simpl. by destruct (bot_run_outcome w token).
Qed.

Lemma new_Interactive_eq token w :
  let l := acquired_loop w in
  let b := bots w in
  let t := length (tasks w) in
  let ls0 := if current_loop w is Some _ then loops w else loops w ++ [mkLoop false []] in
  let ls1 := alter (fun s => mkLoop true (loop_ready s)) l ls0 in
  let w' := final_world (new InteractiveBotRunner token w) in
  current_loop w' = Some l /\
  bot_run_outcome w' = bot_run_outcome w /\
  if valid_tokenb token then
    new InteractiveBotRunner token w = Ok (mkRunner InteractiveBotRunner (Some l) (Some b)) w' /\
    loops w' = alter (fun s => mkLoop (loop_debug s) (loop_ready s ++ [t])) l ls1 /\
    tasks w' = tasks w ++ [mkTask l (BotStart b token)] /\
    bots w' = S b /\
    trace w' = trace w ++ [EvGetEventLoop l; EvSetDebug l true; EvNewBot b;
                           EvBotStart b token; EvCreateTask l t]
  else
    new InteractiveBotRunner token w =
      Raise (AssertionError "No Discord API token could be retrieved") w' /\
    loops w' = ls1 /\ tasks w' = tasks w /\ bots w' = b /\
    trace w' = trace w ++ [EvGetEventLoop l; EvSetDebug l true].
Proof.
  intros l b t ls0 ls1 w'. subst l b t ls0 ls1 w'.
  unfold new, InteractiveBotRunner_init, BotRunner_init, acquired_loop, bind,
    asyncio.get_event_loop, asyncio.loop.set_debug.
  destruct (current_loop w) as [l|] eqn:Hcur;
    rewrite validate_token_total; destruct (valid_tokenb token);
    unfold EduBot.new, Runner_run, InteractiveBotRunner_run, create_task, getattr_bot,
      getattr_loop, EduBot.start, asyncio.loop.create_task, bind, ret; simpl;
    rewrite ?Hcur, <- ?app_assoc; simpl; repeat split; reflexivity.
Qed.


Lemma installed_world_wf : wf installed_world.
Proof. unfold wf. simpl. lia. Qed.

(** ** Validation is a pure test *)

(** X1: [validate_token] returns exactly on the non-empty strings and
    raises the AssertionError on every other value; it never raises
    anything else (no TypeError from [len] of a non-string) and leaves
    the world as it found it. *)
Theorem validate_token_exact (token : pyval) (w : World) :
  (validate_token token w = Ok PyNone w <-> valid_token token) /\
  (validate_token token w =
     Raise (AssertionError "No Discord API token could be retrieved") w
   <-> ~ valid_token token) /\
  final_world (validate_token token w) = w.
Proof.
  rewrite validate_token_total, <- valid_tokenb_spec.
  destruct (valid_tokenb token); simpl; repeat split; try congruence; intros H; done.
Qed.

(** ** What a constructed runner is *)

(** X2: a constructor that returns has validated its token, and the
    runner it returns is of the class asked for, owns the one bot made
    during the call, and has a [loop] attribute exactly when it is
    interactive, namely the loop acquired at the start.  A [BotRunner]
    is only ever returned after [bot.run] has come back. *)
Theorem constructed_runner_invariant
    (cls : RunnerClass) (token : pyval) (w : World) (self : Runner) (w' : World) :
  new cls token w = Ok self w' ->
  valid_token token /\
  r_cls self = cls /\
  r_bot self = Some (bots w) /\
  bots w' = S (bots w) /\
  match cls with
  | BotRunner => r_loop self = None /\ bot_run_outcome w token = RunReturns
  | InteractiveBotRunner => r_loop self = Some (acquired_loop w)
  end.
Proof.
  rewrite <- valid_tokenb_spec. destruct cls.
  - rewrite new_BotRunner_eq. destruct (valid_tokenb token); [|discriminate].
    destruct (bot_run_outcome w token); [|discriminate..].
    intros [= <- <-]. by repeat split.
  - destruct (new_Interactive_eq token w) as (_ & _ & H).
    destruct (valid_tokenb token).
    + destruct H as (Hnew & _ & _ & Hbots & _). rewrite Hnew.
      intros [= <- Hw]. rewrite <- Hw. by repeat split.
    + destruct H as (Hnew & _). rewrite Hnew. discriminate.
Qed.

Lemma constructed_runner_invariant_witness :
  let self := mkRunner InteractiveBotRunner (Some 1) (Some 0) in
  let w' := final_world (new InteractiveBotRunner (PyStr "tok") installed_world) in
  new InteractiveBotRunner (PyStr "tok") installed_world = Ok self w' /\
  valid_token (PyStr "tok") /\
  r_cls self = InteractiveBotRunner /\
  r_bot self = Some 0 /\
  bots w' = 1 /\
  r_loop self = Some 1.
Proof.
  intros self w'. split; [reflexivity|].
  exact (constructed_runner_invariant InteractiveBotRunner (PyStr "tok") installed_world
           self w' eq_refl).
Defined.

(** ** What construction leaves alone *)


(** X4: constructing an [InteractiveBotRunner], with any token, changes
    no loop other than the acquired one, keeps every task that existed,
    and only appends to the ready queue of the acquired loop. *)
Theorem interactive_construction_frame (token : pyval) (w : World) (l' : nat) :
  l' <> acquired_loop w ->
  let l := acquired_loop w in
  let w' := final_world (new InteractiveBotRunner token w) in
  loops w' !! l' = loops w !! l' /\
  tasks w `prefix_of` tasks w' /\
  default [] (loop_ready <$> (loops w !! l))
    `prefix_of` default [] (loop_ready <$> (loops w' !! l)).
Proof.
  intros Hne l w'.
  destruct (new_Interactive_eq token w) as (_ & _ & H). fold l w' in H.
  assert (Hls0 : forall k, k <> l ->
            (if current_loop w is Some _ then loops w else loops w ++ [mkLoop false []]) !! k
            = loops w !! k).
  { intros k Hk. destruct (current_loop w) eqn:Hcur; [done|].
    unfold l, acquired_loop in Hk. rewrite Hcur in Hk.
    destruct (decide (k < length (loops w))).
    - by rewrite lookup_app_l.
    - rewrite !lookup_ge_None_2; [done|lia|rewrite length_app; simpl; lia]. }
  assert (Hq : forall (ls : list LoopState) (f : LoopState -> LoopState),
            (forall s, loop_ready s `prefix_of` loop_ready (f s)) ->
            default [] (loop_ready <$> (ls !! l))
              `prefix_of` default [] (loop_ready <$> (alter f l ls !! l))).
  { intros ls f Hf. rewrite list_lookup_alter, decide_True by done.
    destruct (ls !! l); simpl; [apply Hf|done]. }
  assert (H0 : default [] (loop_ready <$> (loops w !! l)) `prefix_of`
               default [] (loop_ready <$>
                 ((if current_loop w is Some _ then loops w
                   else loops w ++ [mkLoop false []]) !! l))).
  { destruct (current_loop w) eqn:Hcur; [done|].
    unfold l, acquired_loop. rewrite Hcur, lookup_ge_None_2 by lia. apply prefix_nil. }
  destruct (valid_tokenb token).
  - destruct H as (_ & -> & -> & _). split; [|split].
    + rewrite !list_lookup_alter_ne by done. by apply Hls0.
    + by apply prefix_app_r.
    + etrans; [exact H0|]. etrans; [apply (Hq _ (fun s => mkLoop true (loop_ready s))); done|].
      apply Hq. intros s. by apply prefix_app_r.
  - destruct H as (_ & -> & -> & _). split; [|split].
    + rewrite list_lookup_alter_ne by done. by apply Hls0.
    + done.
    + etrans; [exact H0|]. by apply Hq.
Qed.

Lemma interactive_construction_frame_witness :
  let w' := final_world (new InteractiveBotRunner (PyStr "tok") installed_world) in
  0 <> acquired_loop installed_world /\
  loops w' !! 0 = loops installed_world !! 0 /\
  tasks installed_world `prefix_of` tasks w' /\
  default [] (loop_ready <$> (loops installed_world !! 1))
    `prefix_of` default [] (loop_ready <$> (loops w' !! 1)).
Proof.
  intros w'.
  assert (Hne : 0 <> acquired_loop installed_world) by discriminate.
  split; [exact Hne|].
  exact (interactive_construction_frame (PyStr "tok") installed_world 0 Hne).
Defined.

(** ** The loop is borrowed and shared *)



(** X6: [run] has no guard against a second call.  Calling [self.run]
    again on a constructed interactive runner schedules a second task,
    for a second coroutine of the same bot, behind the first one on the
    same loop; no second bot is made. *)
Theorem interactive_run_again_schedules_again
    (s : string) (w : World) (self : Runner) (w1 : World) :
  wf w ->
  new InteractiveBotRunner (PyStr s) w = Ok self w1 ->
  let token := PyStr s in
  let l := acquired_loop w in
  let b := bots w in
  let t := length (tasks w) in
  exists w2,
    Runner_run self token w1 = Ok PyNone w2 /\
    tasks w2 = tasks w ++ [mkTask l (BotStart b token); mkTask l (BotStart b token)] /\
    loop_ready <$> (loops w2 !! l)
      = Some (default [] (loop_ready <$> (loops w !! l)) ++ [t; S t]) /\
    bots w2 = S (bots w) /\
    count is_create_task (trace w2) = 2 + count is_create_task (trace w) /\
    count is_new_bot (trace w2) = 1 + count is_new_bot (trace w).
Proof.
  intros Hwf Hnew token l b t. fold token in Hnew.
  destruct (new_Interactive_eq token w) as (_ & _ & H). fold l b t in H.
  set (w0 := final_world (new InteractiveBotRunner token w)) in H.
  assert (Hv : valid_tokenb token = true).
  { destruct (valid_tokenb token); [done|]. destruct H as (Hr & _).
    rewrite Hr in Hnew. discriminate. }
  rewrite Hv in H. destruct H as (Hr & Hloops & Htasks & Hbots & Htr).
  rewrite Hr in Hnew. injection Hnew as <- <-. clearbody w0. clear Hr.
  rename w0 into w1.
  set (self := mkRunner InteractiveBotRunner (Some l) (Some b)).
  destruct (InteractiveBotRunner_run_spec self l b eq_refl eq_refl token w1)
    as (w2 & _ & Hrun & Htasks2 & Hq & _ & Htr2 & _ & Hbots2).
  exists w2. split; [exact Hrun|].
  assert (Hl : l < length (if current_loop w is Some _ then loops w
                           else loops w ++ [mkLoop false []])).
  { unfold l, acquired_loop. unfold wf in Hwf.
    destruct (current_loop w); [done|]. rewrite length_app. simpl. lia. }
  destruct (lookup_lt_is_Some_2 _ _ Hl) as [ls0 Hls0].
  assert (Hrdy0 : loop_ready ls0 = default [] (loop_ready <$> (loops w !! l))).
  { revert Hls0. unfold l, acquired_loop. destruct (current_loop w) eqn:Hcur.
    - by intros ->.
    - rewrite lookup_app_r, Nat.sub_diag by lia. intros [= <-].
      by rewrite lookup_ge_None_2 by lia. }
  assert (Hls1 : loops w1 !! l = Some (mkLoop true (loop_ready ls0 ++ [t]))).
  { rewrite Hloops, !list_lookup_alter, Hls0, !decide_True by done. reflexivity. }
  rewrite (Hq _ Hls1), Htasks2, Htasks, Htr2, Htr, Hbots2, Hbots, <- !app_assoc, length_app.
  simpl. fold t. rewrite Hrdy0, !count_app, Nat.add_1_r. unfold count. simpl.
  rewrite <- app_assoc. repeat split; (reflexivity || lia).
Qed.

Lemma interactive_run_again_schedules_again_witness :
  let token := PyStr "tok" in
  let self := mkRunner InteractiveBotRunner (Some 1) (Some 0) in
  let w := installed_world in
  let w1 := final_world (new InteractiveBotRunner token w) in
  wf w /\
  new InteractiveBotRunner token w = Ok self w1 /\
  exists w2,
    Runner_run self token w1 = Ok PyNone w2 /\
    tasks w2 = tasks w ++ [mkTask 1 (BotStart 0 token); mkTask 1 (BotStart 0 token)] /\
    loop_ready <$> (loops w2 !! 1) = Some [1; 2] /\
    bots w2 = 1 /\
    count is_create_task (trace w2) = 2 + count is_create_task (trace w) /\
    count is_new_bot (trace w2) = 1 + count is_new_bot (trace w).
Proof.
  intros token self w w1.
  split; [exact installed_world_wf|]. split; [reflexivity|].
  exact (interactive_run_again_schedules_again "tok" w self w1 installed_world_wf eq_refl).
Defined.

(** ** The default token *)

(** X7: when [DISCORD_TOKEN] is unset or empty at the time the module is
    loaded, every construction that relies on the default token fails:
    [BotRunner()] and [InteractiveBotRunner()] raise the AssertionError
    without making a bot, and so does the command line without
    [--token]. *)
Theorem unset_token_fails_by_default
    (package : pyval) (filepath : string) (w0 w1 : World) (m : Module)
    (cls : RunnerClass) (w : World) :
  load_module package filepath w0 = Ok m w1 ->
  environ w0 !! "DISCORD_TOKEN" = None \/ environ w0 !! "DISCORD_TOKEN" = Some "" ->
  (exists w',
     new_default m cls w =
       Raise (AssertionError "No Discord API token could be retrieved") w' /\
     bots w' = bots w) /\
  cli_main m [] w = Raise (AssertionError "No Discord API token could be retrieved") w.
Proof.
  intros Hload Henv.
  assert (Hv : valid_tokenb (TOKEN m) = false).
  { rewrite (load_module_TOKEN _ _ _ _ _ Hload). by destruct Henv as [-> | ->]. }
  split.
  - unfold new_default. destruct cls.
    + exists w. by rewrite new_BotRunner_eq, Hv.
    + destruct (new_Interactive_eq (TOKEN m) w) as (_ & _ & H). rewrite Hv in H.
      destruct H as (Hr & _ & _ & Hb & _). eexists. split; [exact Hr|exact Hb].
  - unfold cli_main. rewrite click_parse_no_args. unfold cli.
    by rewrite new_BotRunner_eq, Hv.
Qed.

Lemma unset_token_fails_by_default_witness :
  let w0 := installed_world in
  let m := mkModule PyNone in
  let w1 := final_world (load_module (PyStr "edubot") "/site/edubot/run.py" w0) in
  load_module (PyStr "edubot") "/site/edubot/run.py" w0 = Ok m w1 /\
  (environ w0 !! "DISCORD_TOKEN" = None \/ environ w0 !! "DISCORD_TOKEN" = Some "") /\
  (exists w',
     new_default m InteractiveBotRunner w0 =
       Raise (AssertionError "No Discord API token could be retrieved") w' /\
     bots w' = bots w0) /\
  cli_main m [] w0 = Raise (AssertionError "No Discord API token could be retrieved") w0.
Proof.
  intros w0 m w1.
  assert (Hload : load_module (PyStr "edubot") "/site/edubot/run.py" w0 = Ok m w1)
    by reflexivity.
  assert (Henv : environ w0 !! "DISCORD_TOKEN" = None \/
                 environ w0 !! "DISCORD_TOKEN" = Some "") by (left; reflexivity).
  split; [exact Hload|]. split; [exact Henv|].
  exact (unset_token_fails_by_default (PyStr "edubot") "/site/edubot/run.py" w0 w1 m
           InteractiveBotRunner w0 Hload Henv).
Defined.

(** ** When loading the module works *)

(** X8: the module loads exactly when the package is found on the
    search path, or the launcher runs as a script and the parent of its
    directory provides the package.  The search path is changed exactly
    when the first import fails in a script, and the entry put in front
    stays there even when the second import fails too.  Loading touches
    neither bots nor loops. *)
Theorem load_module_outcome (package : pyval) (filepath : string) (w : World) :
  let d := os.path.join (os.path.dirname filepath) ".." in
  let found := existsb (fs_has_edubot w) (sys_path w) in
  let retry := negb found && negb (py_truthy package) in
  let r := load_module package filepath w in
  ((exists m w', r = Ok m w') <-> found = true \/ (retry = true /\ fs_has_edubot w d = true)) /\
  sys_path (final_world r) = (if retry then d :: sys_path w else sys_path w) /\
  bots (final_world r) = bots w /\
  loops (final_world r) = loops w /\
  current_loop (final_world r) = current_loop w.
Proof.
  intros d found retry r. subst retry r.
  destruct found eqn:Hfound; subst found.
  - rewrite (load_module_import_ok _ _ _ Hfound). simpl.
    repeat split; eauto.
  - unfold load_module, bind, try_except_ImportError, import_EduBot. rewrite Hfound.
    destruct (py_truthy package); simpl.
    + repeat split; try done.
      * intros (m & w' & H). discriminate.
      * intros [H | [H _]]; discriminate.
    + rewrite !drop_0. fold d. rewrite Hfound, orb_false_r.
      destruct (fs_has_edubot w d); simpl; repeat split; eauto.
      * intros (m & w' & H). discriminate.
      * intros [H | [_ H]]; discriminate.
Qed.

(** ** The probe, inside and outside a console *)

(** X9: [is_ipython] never raises.  Its result is truthy exactly inside
    a running console, where it is the shell object; it is a [bool], as
    the annotation promises, only when IPython is absent. *)
Theorem is_ipython_result (w : World) :
  exists v w',
    is_ipython w = Ok v w' /\
    (py_truthy v = true <-> ipython w = IPythonActive) /\
    (v = PyShell <-> ipython w = IPythonActive) /\
    ((exists b, v = PyBool b) <-> ipython w = IPythonAbsent).
Proof.
  rewrite is_ipython_cases.
  destruct (ipython w); eexists; eexists; (split; [reflexivity|]); simpl;
    repeat split; try congruence; eauto; intros [b Hb]; discriminate.
Qed.

(** ** The script entry *)

Lemma valid_tokenb_PyStr s : s <> "" -> valid_tokenb (PyStr s) = true.
Proof. intros Hs. by destruct s. Qed.

Lemma load_module_eq package filepath w :
  let d := os.path.join (os.path.dirname filepath) ".." in
  let tok := match environ w !! "DISCORD_TOKEN" with
             | Some v => PyStr v
             | None => PyNone
             end in
  let w1 := log (EvImportEduBot false) (set_exn_serial (S (exn_serial w)) w) in
  let w2 := set_sys_path (d :: sys_path w) w1 in
  load_module package filepath w =
  if existsb (fs_has_edubot w) (sys_path w) then
    Ok (mkModule tok) (log (EvImportEduBot true) w)
  else if py_truthy package then
    Raise (ImportError (exn_serial w) "edubot") w1
  else if fs_has_edubot w d then
    Ok (mkModule tok) (log (EvImportEduBot true) w2)
  else
    Raise (ImportError (S (exn_serial w)) "edubot")
          (log (EvImportEduBot false) (set_exn_serial (S (S (exn_serial w))) w2)).
Proof.
  intros d tok w1 w2.
  destruct (existsb (fs_has_edubot w) (sys_path w)) eqn:Hfound.
  - by rewrite (load_module_import_ok _ _ _ Hfound).
  - unfold load_module, bind, try_except_ImportError, import_EduBot. rewrite Hfound.
    destruct (py_truthy package); simpl; [done|].
    rewrite !drop_0. fold d. rewrite Hfound, orb_false_r.
    by destruct (fs_has_edubot w d).
Qed.

(** X10: with a valid default token, the [__main__] block makes exactly
    one bot and runs it in one mode only.  Inside a console it returns
    an interactive runner with one task scheduled and [bot.run] never
    called, whatever that call would do; outside of one it schedules
    nothing, calls [bot.run] once, and ends as that call ends. *)
Theorem main_picks_one_mode (s : string) (m : Module) (w : World) :
  TOKEN m = PyStr s -> s <> "" ->
  let token := PyStr s in
  let active := match ipython w with IPythonActive => true | _ => false end in
  let w' := final_world (main m w) in
  count is_new_bot (trace w') = 1 + count is_new_bot (trace w) /\
  count is_bot_run (trace w') = (if active then 0 else 1) + count is_bot_run (trace w) /\
  count is_create_task (trace w')
    = (if active then 1 else 0) + count is_create_task (trace w) /\
  main m w =
    if active then
      Ok (mkRunner InteractiveBotRunner (Some (acquired_loop w)) (Some (bots w))) w'
    else
      match bot_run_outcome w token with
      | RunReturns => Ok (mkRunner BotRunner None (Some (bots w))) w'
      | RunRaises e => Raise e w'
      | RunForever => Blocked w'
      end.
Proof.
  intros Htok Hs token active w'. subst token active w'.
  pose proof (valid_tokenb_PyStr s Hs) as Hv.
  rewrite main_choice, Htok.
  destruct (ipython w).
  - rewrite new_BotRunner_eq, Hv. simpl.
    destruct (bot_run_outcome w (PyStr s)); simpl; rewrite <- app_assoc, !count_app;
      unfold count; simpl; repeat split; lia.
  - rewrite new_BotRunner_eq, Hv.
    destruct (bot_run_outcome w (PyStr s)); simpl; rewrite <- app_assoc, !count_app;
      unfold count; simpl; repeat split; lia.
  - destruct (new_Interactive_eq (PyStr s) w) as (_ & _ & H). rewrite Hv in H.
    destruct H as (Hr & _ & _ & _ & Htr). rewrite Htr, !count_app.
    unfold count. simpl. repeat split; try lia. exact Hr.
Qed.

Lemma main_picks_one_mode_witness :
  let m := mkModule (PyStr "tok") in
  let w := console_world in
  let w' := final_world (main m w) in
  TOKEN m = PyStr "tok" /\ "tok" <> "" /\
  count is_new_bot (trace w') = 1 + count is_new_bot (trace w) /\
  count is_bot_run (trace w') = 0 + count is_bot_run (trace w) /\
  count is_create_task (trace w') = 1 + count is_create_task (trace w) /\
  main m w = Ok (mkRunner InteractiveBotRunner (Some 0) (Some 0)) w'.
Proof.
  intros m w w'. split; [reflexivity|]. split; [discriminate|].
  exact (main_picks_one_mode "tok" m w eq_refl ltac:(discriminate)).
Defined.



(** X12: running [run.py] as a script from a checkout, outside a
    console, with a non-empty [DISCORD_TOKEN]: the first import fails,
    the parent directory is put first on the search path, the second
    import succeeds, one bot is made and [bot.run] is called once with
    the token of the environment; the script ends as that call ends, and
    when it ends normally [bot] is the bot of [runner]. *)
Theorem script_run_end_to_end
    (package : pyval) (filepath : string) (s : string) (w : World) :
  py_truthy package = false ->
  existsb (fs_has_edubot w) (sys_path w) = false ->
  fs_has_edubot w (os.path.join (os.path.dirname filepath) "..") = true ->
  environ w !! "DISCORD_TOKEN" = Some s ->
  s <> "" ->
  ipython w <> IPythonActive ->
  let d := os.path.join (os.path.dirname filepath) ".." in
  let b := bots w in
  let r := exec_module "__main__" package filepath w in
  trace (final_world r) =
    trace w ++ [EvImportEduBot false; EvImportEduBot true; EvNewBot b; EvBotRun b (PyStr s)] /\
  sys_path (final_world r) = d :: sys_path w /\
  r = match bot_run_outcome w (PyStr s) with
      | RunReturns =>
          Ok (mkModule (PyStr s), Some (mkRunner BotRunner None (Some b), b)) (final_world r)
      | RunRaises e => Raise e (final_world r)
      | RunForever => Blocked (final_world r)
      end.
Proof.
  intros Hpkg Hfound Hparent Henv Hs Hno d b r.
  pose proof (valid_tokenb_PyStr s Hs) as Hv.
  set (w3 := log (EvImportEduBot true)
               (set_sys_path (d :: sys_path w)
                  (log (EvImportEduBot false) (set_exn_serial (S (exn_serial w)) w)))).
  assert (Hload : load_module package filepath w = Ok (mkModule (PyStr s)) w3).
  { rewrite load_module_eq, Hfound, Hpkg, Hparent, Henv. reflexivity. }
  assert (Hr : exists w4,
             bots w4 = bots w /\ trace w4 = trace w3 /\ sys_path w4 = sys_path w3 /\
             r = match bot_run_outcome w (PyStr s) with
                 | RunReturns =>
                     Ok (mkModule (PyStr s), Some (mkRunner BotRunner None (Some b), b))
                        (log (EvBotRun b (PyStr s)) (log (EvNewBot b) (set_bots (S b) w4)))
                 | RunRaises e =>
                     Raise e (log (EvBotRun b (PyStr s)) (log (EvNewBot b) (set_bots (S b) w4)))
                 | RunForever =>
                     Blocked (log (EvBotRun b (PyStr s)) (log (EvNewBot b) (set_bots (S b) w4)))
                 end).
  { unfold r, exec_module. step Hload. simpl. unfold bind at 1. rewrite main_choice.
    change (ipython w3) with (ipython w). change (TOKEN _) with (PyStr s).
    destruct (ipython w); [| |congruence]; rewrite new_BotRunner_eq, Hv;
      eexists; (split; [|split; [|split]]);
      [| | |simpl; fold b; destruct (bot_run_outcome w (PyStr s)); reflexivity
       | | | |simpl; fold b; destruct (bot_run_outcome w (PyStr s)); reflexivity];
      reflexivity. }
  destruct Hr as (w4 & Hb4 & Htr4 & Hsp4 & Hr). clearbody r. subst r.
  destruct (bot_run_outcome w (PyStr s)); simpl; rewrite Htr4, Hsp4; simpl;
    rewrite <- !app_assoc; simpl; repeat split; reflexivity.
Qed.

Lemma script_run_end_to_end_witness :
  let w := checkout_world in
  let r := exec_module "__main__" PyNone "src/edubot/run.py" w in
  py_truthy PyNone = false /\
  existsb (fs_has_edubot w) (sys_path w) = false /\
  fs_has_edubot w "src/edubot/.." = true /\
  environ w !! "DISCORD_TOKEN" = Some "abc" /\
  "abc" <> "" /\
  ipython w <> IPythonActive /\
  trace (final_world r) =
    trace w ++ [EvImportEduBot false; EvImportEduBot true; EvNewBot 0; EvBotRun 0 (PyStr "abc")] /\
  sys_path (final_world r) = "src/edubot/.." :: sys_path w /\
  r = Ok (mkModule (PyStr "abc"), Some (mkRunner BotRunner None (Some 0), 0)) (final_world r).
Proof.
  intros w r.
  assert (Henv : environ w !! "DISCORD_TOKEN" = Some "abc") by (vm_compute; reflexivity).
  split; [reflexivity|]. split; [reflexivity|]. split; [reflexivity|].
  split; [exact Henv|]. split; [discriminate|]. split; [discriminate|].
  exact (script_run_end_to_end PyNone "src/edubot/run.py" "abc" w
           eq_refl eq_refl eq_refl Henv ltac:(discriminate) ltac:(discriminate)).
Defined.
